(** * AuthContext: the authentication state bridge of bloom-harvest

    A shallow embedding of [src/contexts/AuthContext.tsx].  The React
    component state ([session], [user], [isLoading]), the browser's
    [localStorage] and the observable effects of the module (notifications,
    console output, calls to the Supabase client, timers) are gathered in a
    record [World]; every [async] function of the component is a computation
    in a small state-and-exception monad [Async] over that record. *)

From Stdlib Require Import ZArith String List Bool Lia Sorted.
From stdpp Require Import base tactics option list strings gmap pretty.

Local Open Scope string_scope.
Local Open Scope Z_scope.

(** ** Types of the Supabase SDK that the component mirrors

    The component imports [Session] and [User] from [@supabase/supabase-js]
    and the client from [@/integrations/supabase/client]; neither
    declaration is part of the sources, so the types below follow the data
    model of the specification and the way the component uses them. *)

Module Supabase.

(** Modelled from the spec: the [User] type of the provider SDK, the
    identity record associated with a session.  The component only reads
    [id]. *)
Record User : Type := mkUser { id : string; email : string }.

(** Modelled from the spec: the [Session] type of the provider SDK, an
    opaque token bundle together with the [user] it was issued to; a
    session always carries its user. *)
Record Session : Type := mkSession { access_token : string; user : User }.

(** The value bound by [catch (error: any)]; only [message] is read. *)
Record JsError : Type := mkError { message : string }.

(** Result object of the [auth.*] calls: [{ error }]. *)
Record AuthResponse : Type := mkAuthResponse { auth_error : option JsError }.

(** A promise that has settled. *)
Inductive Awaited (A : Type) : Type :=
| Resolved (a : A)
| Rejected (e : JsError).
Arguments Resolved {A} a.
Arguments Rejected {A} e.

(** Modelled from the spec: one order line, with the columns that
    [getUserOrders] selects from [order_items]. *)
Record OrderItem : Type := mkOrderItem {
  item_id : string;
  product_id : Z;
  quantity : Z;
  price_at_purchase : Z;
  item_created_at : Z
}.

(** Modelled from the spec: one order of the read model, with the columns
    that [getUserOrders] selects from [orders]; the timestamps are the
    instants held by the columns. *)
Record Order : Type := mkOrder {
  order_id : string;
  status : string;
  created_at : Z;
  updated_at : Z;
  order_items : list OrderItem
}.

(** [supabase.from(table).select(columns).order(column, { ascending })].
    [filters] lists the row filters chained on the builder ([eq], [in],
    ...). *)
Record Query : Type := mkQuery {
  from : string;
  select : string;
  filters : list (string * string);
  order : string * bool
}.

(** Result object of a query: [{ data, error }]. *)
Record QueryResponse : Type := mkQueryResponse {
  data : option (list Order);
  query_error : option JsError
}.

(** The entry points of the client that the component calls. *)
Inductive Call : Type :=
| auth_onAuthStateChange
| subscription_unsubscribe
| auth_getSession
| auth_signUp (email password emailRedirectTo : string)
| auth_signInWithPassword (email password : string)
| auth_signOut
| run_query (q : Query).

End Supabase.

Import Supabase (User, Session, JsError, Awaited, Resolved, Rejected,
                 AuthResponse, QueryResponse, Query, Order, Call).

(** ** Notifications and observable effects *)

(** Argument of [toast({ title, description, variant })]. *)
Record Toast : Type := mkToast {
  title : string;
  description : string;
  variant : option string
}.

Inductive Effect : Type :=
| Toasted (t : Toast)
| ProviderCall (c : Call)
| ConsoleLog (label event : string) (uid : option string)
| ConsoleError (label : string) (e : JsError)
| SetTimeout (ms : Z).

(** ** The world the component runs in *)

Record World : Type := mkWorld {
  (** [useState] cells of [AuthProvider] *)
  session : option Session;
  user : option User;
  isLoading : bool;
  (** the [user] that the currently subscribed [onAuthStateChange] callback
      closed over: the value of [user] in the render whose effect
      subscribed it *)
  handler_user : option User;
  (** [window.localStorage] *)
  localStorage : gmap string string;
  (** [window.location.origin] *)
  location_origin : string;
  (** everything the component did that is visible outside, oldest first *)
  effects : list Effect
}.

Definition with_session (v : option Session) (w : World) : World :=
  mkWorld v (user w) (isLoading w) (handler_user w) (localStorage w)
          (location_origin w) (effects w).

Definition with_user (v : option User) (w : World) : World :=
  mkWorld (session w) v (isLoading w) (handler_user w) (localStorage w)
          (location_origin w) (effects w).

Definition with_isLoading (v : bool) (w : World) : World :=
  mkWorld (session w) (user w) v (handler_user w) (localStorage w)
          (location_origin w) (effects w).

Definition with_handler_user (v : option User) (w : World) : World :=
  mkWorld (session w) (user w) (isLoading w) v (localStorage w)
          (location_origin w) (effects w).

Definition with_localStorage (v : gmap string string) (w : World) : World :=
  mkWorld (session w) (user w) (isLoading w) (handler_user w) v
          (location_origin w) (effects w).

Definition emit (e : Effect) (w : World) : World :=
  mkWorld (session w) (user w) (isLoading w) (handler_user w) (localStorage w)
          (location_origin w) (effects w ++ [e]).

(** ** The monad of [async] functions *)

(** How a function body completes: with a value, or by throwing.  For an
    [async] function these are the fulfilled and the rejected promise. *)
Inductive Completion (A : Type) : Type :=
| Normal (a : A)
| Throw (e : JsError).
Arguments Normal {A} a.
Arguments Throw {A} e.

Definition Async (A : Type) : Type := World → Completion A * World.

Definition ret {A} (a : A) : Async A := λ w, (Normal a, w).

Definition throw {A} (e : JsError) : Async A := λ w, (Throw e, w).

Definition bind {A B} (m : Async A) (k : A → Async B) : Async B :=
  λ w, match m w with
       | (Normal a, w') => k a w'
       | (Throw e, w') => (Throw e, w')
       end.

#[global] Instance Async_ret : MRet Async := @ret.
#[global] Instance Async_bind : MBind Async := λ A B k m, bind m k.

(** [try { body } catch (error) { handler error }] *)
Definition try_catch {A} (body : Async A) (handler : JsError → Async A)
  : Async A :=
  λ w, match body w with
       | (Normal a, w') => (Normal a, w')
       | (Throw e, w') => handler e w'
       end.

(** [try { body } finally { final }]: [final] runs on both exits and the
    completion of [body] is kept unless [final] throws itself. *)
Definition try_finally {A} (body : Async A) (final : Async unit) : Async A :=
  λ w, match body w with
       | (c, w') =>
           match final w' with
           | (Normal _, w'') => (c, w'')
           | (Throw e, w'') => (Throw e, w'')
           end
       end.

(** A state change or an effect that cannot fail. *)
Definition perform (f : World → World) : Async unit := λ w, (Normal tt, f w).

Definition read {A} (f : World → A) : Async A := λ w, (Normal (f w), w).

(** Calling the client entry point [c]: the call is issued at once and the
    promise it returns settles later. *)
Definition issue (c : Call) : Async unit :=
  perform (emit (ProviderCall c)).

(** Resuming after [await] on a promise settled as [r]. *)
Definition settle {A} (r : Awaited A) : Async A :=
  match r with
  | Resolved a => mret a
  | Rejected e => throw e
  end.

(** [await c(...)], the promise settling as [r]. *)
Definition await {A} (c : Call) (r : Awaited A) : Async A :=
  issue c ;; settle r.

(** A call into the JavaScript host that completes as [r]. *)
Definition host {A} (r : Completion A) : Async A := λ w, (r, w).

(** ** Primitives used by the component *)

Definition setSession (v : option Session) : Async unit :=
  perform (with_session v).
Definition setUser (v : option User) : Async unit :=
  perform (with_user v).
Definition setIsLoading (v : bool) : Async unit :=
  perform (with_isLoading v).

Definition toast (t : Toast) : Async unit := perform (emit (Toasted t)).

Definition localStorage_removeItem (key : string) : Async unit :=
  perform (λ w, with_localStorage (delete key (localStorage w)) w).

(** [session?.user ?? null] *)
Definition session_user (s : option Session) : option User :=
  match s with
  | Some s => Some (Supabase.user s)
  | None => None
  end.

(** [session?.user?.id] *)
Definition session_user_id (s : option Session) : option string :=
  match s with
  | Some s => Some (Supabase.id (Supabase.user s))
  | None => None
  end.

Definition is_null {A} (o : option A) : bool :=
  match o with None => true | Some _ => false end.

(** ** The component [AuthProvider] *)

(** State of the first render: [useState(null)], [useState(null)],
    [useState(true)]; no callback is subscribed yet. *)
Definition initial_world (storage : gmap string string) (origin : string)
  : World :=
  mkWorld None None true None storage origin [].

(** The callback handed to [supabase.auth.onAuthStateChange].  [user] is the
    variable of the enclosing render that the callback closed over. *)
Definition onAuthStateChange_callback (user : option User)
    (event : string) (session : option Session) : Async unit :=
  perform (emit (ConsoleLog "Auth state change:" event
                            (session_user_id session))) ;;
  setSession session ;;
  setUser (session_user session) ;;
  (if String.eqb event "SIGNED_IN" then
     toast {| title := "Signed in successfully";
              description := "Welcome back to AgroConnect!";
              variant := None |}
   else mret tt) ;;
  (if String.eqb event "SIGNED_OUT" then
     (if is_null session && negb (is_null user) then
        toast {| title := "Signed out successfully";
                 description := "You have been signed out.";
                 variant := None |}
      else mret tt) ;;
     localStorage_removeItem "cart" ;;
     localStorage_removeItem "favorites"
   else mret tt) ;;
  setIsLoading false.

(** The [then] callback of [supabase.auth.getSession()]. *)
Definition getSession_then (session : option Session) : Async unit :=
  setSession session ;;
  setUser (session_user session) ;;
  setIsLoading false.

(** Body of the [useEffect]: subscribe a callback closing over the current
    [user], then ask for the existing session. *)
Definition useEffect_body : Async unit :=
  issue Supabase.auth_onAuthStateChange ;;
  perform (λ w, with_handler_user (user w) w) ;;
  issue Supabase.auth_getSession.

(** Cleanup returned by the effect: [subscription.unsubscribe()]. *)
Definition useEffect_cleanup : Async unit :=
  issue Supabase.subscription_unsubscribe.

Definition signUp (reply : Awaited AuthResponse) (email password : string)
  : Async unit :=
  try_catch
    (origin ← read location_origin;
     let redirectUrl := origin ++ "/" in
     r ← await (Supabase.auth_signUp email password redirectUrl) reply;
     match Supabase.auth_error r with
     | Some error => throw error
     | None =>
         toast {| title := "Account created successfully";
                  description :=
                    "Please check your email to verify your account.";
                  variant := None |}
     end)
    (λ error,
       toast {| title := "Error signing up";
                description := Supabase.message error;
                variant := Some "destructive" |} ;;
       throw error).

Definition signIn (reply : Awaited AuthResponse) (email password : string)
  : Async unit :=
  try_catch
    (r ← await (Supabase.auth_signInWithPassword email password) reply;
     match Supabase.auth_error r with
     | Some error => throw error
     | None => mret tt
     end)
    (λ error,
       toast {| title := "Error signing in";
                description := Supabase.message error;
                variant := Some "destructive" |} ;;
       throw error).

(** What [signOut] does once the promise of [supabase.auth.signOut()] has
    settled as [r]; shared by [signOut] and [signOut_resumed]. *)
Definition signOut_after_await (r : Awaited AuthResponse) : Async unit :=
  r ← settle r;
  match Supabase.auth_error r with
  | Some error => throw error
  | None =>
      setSession None ;;
      setUser None ;;
      localStorage_removeItem "cart" ;;
      localStorage_removeItem "favorites"
  end.

Definition signOut_catch (error : JsError) : Async unit :=
  toast {| title := "Error signing out";
           description := Supabase.message error;
           variant := Some "destructive" |} ;;
  throw error.

Definition signOut (reply : Awaited AuthResponse) : Async unit :=
  try_finally
    (try_catch
       (setIsLoading true ;;
        issue Supabase.auth_signOut ;;
        signOut_after_await reply)
       signOut_catch)
    (setIsLoading false).

(** [signOut] cut at its [await]: the part that runs when it is called ... *)
Definition signOut_suspended : Async unit :=
  setIsLoading true ;;
  issue Supabase.auth_signOut.

(** ... and the part that runs when the promise has settled; other
    callbacks of the component may run in between. *)
Definition signOut_resumed (reply : Awaited AuthResponse) : Async unit :=
  try_finally
    (try_catch (signOut_after_await reply) signOut_catch)
    (setIsLoading false).

(** The query built by [getUserOrders]. *)
Definition orders_query : Query :=
  {| Supabase.from := "orders";
     Supabase.select := "
          id,
          status,
          created_at,
          updated_at,
          order_items (
            id,
            product_id,
            quantity,
            price_at_purchase,
            created_at
          )
        ";
     Supabase.filters := [];
     Supabase.order := ("created_at", false) |}.

(** [user] is the variable of the render that made the function; the
    context hands out the functions of the latest render, so it is read
    from the state. *)
Definition getUserOrders (reply : Awaited QueryResponse)
  : Async (list Order) :=
  u ← read user;
  if is_null u then mret []
  else
    try_catch
      (r ← await (Supabase.run_query orders_query) reply;
       match Supabase.query_error r with
       | Some error => throw error
       | None =>
           match Supabase.data r with
           | Some orders => mret orders
           | None => mret []
           end
       end)
      (λ error,
         toast {| title := "Error fetching orders";
                  description := Supabase.message error;
                  variant := Some "destructive" |} ;;
         mret []).

(** Element type of the [items] argument of [createOrder]. *)
Record OrderLine : Type := mkOrderLine {
  productId : Z;
  line_quantity : Z;
  price : Z
}.

(** How the host functions called inside [createOrder] complete:
    [Date.now()], [Math.random().toString(36)] (the base-36 text of the
    random number) and the timer promise. *)
Record OrderHost : Type := mkOrderHost {
  Date_now : Completion Z;
  Math_random_toString36 : Completion string;
  timer : Completion unit
}.

Definition createOrder (h : OrderHost) (items : list OrderLine)
  : Async (option string) :=
  u ← read user;
  if is_null u then mret None
  else
    try_catch
      (now ← host (Date_now h);
       rnd ← host (Math_random_toString36 h);
       let orderId := "order_" ++ pretty now ++ "_" ++ substring 2 9 rnd in
       perform (emit (SetTimeout 1000)) ;;
       host (timer h) ;;
       mret (Some orderId))
      (λ error,
         perform (emit (ConsoleError "Order creation error:" error)) ;;
         mret None).

(** ** The mount lifecycle as a transition system *)

Definition run {A} (m : Async A) (w : World) : World := snd (m w).

Definition result {A} (m : Async A) (w : World) : Completion A := fst (m w).

(** Effects added between an earlier world [w] and a later world [w']. *)
Definition emitted (w w' : World) : list Effect :=
  drop (length (effects w)) (effects w').

Fixpoint toasts_of (l : list Effect) : list Toast :=
  match l with
  | [] => []
  | Toasted t :: l => t :: toasts_of l
  | _ :: l => toasts_of l
  end.

Fixpoint calls_of (l : list Effect) : list Call :=
  match l with
  | [] => []
  | ProviderCall c :: l => c :: calls_of l
  | _ :: l => calls_of l
  end.

(** What can happen to a mounted [AuthProvider], one run-to-completion turn
    of the event loop each. *)
Inductive Action : Type :=
| StreamEvent (event : string) (session : option Session)
| SessionFetched (session : option Session)
| EffectRerun
| SignUp (reply : Awaited AuthResponse) (email password : string)
| SignIn (reply : Awaited AuthResponse) (email password : string)
| SignOutCalled
| SignOutSettled (reply : Awaited AuthResponse)
| GetUserOrders (reply : Awaited QueryResponse)
| CreateOrder (h : OrderHost) (items : list OrderLine).

Definition step (a : Action) (w : World) : World :=
  match a with
  | StreamEvent event session =>
      run (onAuthStateChange_callback (handler_user w) event session) w
  | SessionFetched session => run (getSession_then session) w
  | EffectRerun => run (useEffect_cleanup ;; useEffect_body) w
  | SignUp reply email password => run (signUp reply email password) w
  | SignIn reply email password => run (signIn reply email password) w
  | SignOutCalled => run signOut_suspended w
  | SignOutSettled reply => run (signOut_resumed reply) w
  | GetUserOrders reply => run (getUserOrders reply) w
  | CreateOrder h items => run (createOrder h items) w
  end.

(** The world once the component is mounted: first render, then the effect. *)
Definition mount (storage : gmap string string) (origin : string) : World :=
  run useEffect_body (initial_world storage origin).

(** The worlds visited by a sequence of actions, the starting one first. *)
Fixpoint worlds (l : list Action) (w : World) : list World :=
  match l with
  | [] => [w]
  | a :: l => w :: worlds l (step a w)
  end.

(** The world a sequence of actions ends in. *)
Definition final (l : list Action) (w : World) : World :=
  fold_left (λ w a, step a w) l w.






(** The error with which a call to the [auth] client failed, if it did:
    a rejected promise, or a result object carrying [error]. *)
Definition auth_failure (r : Awaited AuthResponse) : option JsError :=
  match r with
  | Rejected e => Some e
  | Resolved r => Supabase.auth_error r
  end.

Definition query_failure (r : Awaited QueryResponse) : option JsError :=
  match r with
  | Rejected e => Some e
  | Resolved r => Supabase.query_error r
  end.

(** Rows in the order asked for by [.order("created_at", { ascending })]. *)
Fixpoint sorted_by_created_at (ascending : bool) (rows : list Order) : bool :=
  match rows with
  | a :: (b :: _) as t =>
      (if ascending then Supabase.created_at a <=? Supabase.created_at b
       else Supabase.created_at b <=? Supabase.created_at a)
      && sorted_by_created_at ascending t
  | _ => true
  end.

(** [a] may come before [b] in a list ordered by [created_at],
    descending. *)
Definition newest_first (a b : Order) : Prop :=
  Supabase.created_at b <= Supabase.created_at a.

(** The notification of the "SIGNED_OUT" branch of the stream callback. *)
Definition signed_out_toast : Toast :=
  {| title := "Signed out successfully";
     description := "You have been signed out.";
     variant := None |}.

(** The notification shown by the [catch] blocks. *)
Definition error_toast (title : string) (e : JsError) : Toast :=
  {| title := title;
     description := Supabase.message e;
     variant := Some "destructive" |}.

Definition destructive (t : Toast) : bool :=
  match variant t with
  | Some v => String.eqb v "destructive"
  | None => false
  end.

(** The provider reporting success: a result object without [error]. *)
Definition auth_ok : Awaited AuthResponse :=
  Resolved (Supabase.mkAuthResponse None).

(** The rows that a settled query hands to the caller: [orders || []]. *)
Definition delivered (reply : Awaited QueryResponse) : list Order :=
  match reply with
  | Resolved r => default [] (Supabase.data r)
  | Rejected _ => []
  end.

(** The mirrored [user] is there exactly when the mirrored [session] is. *)
Definition mirrored_consistent (w : World) : Prop :=
  user w ≠ None ↔ session w ≠ None.

(** The values of [isLoading] along a sequence of actions. *)
Definition loading_history (l : list Action) (w : World) : list bool :=
  map isLoading (worlds l w).


(** ** Sample data *)

Definition U1 : User := Supabase.mkUser "u-1" "ana@example.org".
Definition S1 : Session := Supabase.mkSession "tok-1" U1.
Definition U2 : User := Supabase.mkUser "u-2" "bo@example.org".
Definition S2 : Session := Supabase.mkSession "tok-2" U2.

(** A freshly mounted component in a browser that holds a cart. *)
Definition W0 : World :=
  mount {[ "cart" := "[1,2]"; "favorites" := "[7]"; "theme" := "dark" ]}
        "https://agro.example".

Definition boom : JsError := Supabase.mkError "network down".

(** The component after user [U1] has signed in and the effect has
    subscribed a callback for the new [user]. *)
Definition W1 : World :=
  final [StreamEvent "SIGNED_IN" (Some S1); EffectRerun] W0.


(** Three orders, newest first. *)
Definition three_orders : list Order :=
  [ Supabase.mkOrder "o-3" "pending" 1700000300 1700000300
      [Supabase.mkOrderItem "i-9" 4 2 1250 1700000300];
    Supabase.mkOrder "o-2" "shipped" 1700000200 1700000250 [];
    Supabase.mkOrder "o-1" "delivered" 1700000100 1700000400 [] ].

(** ** The context and its consumer hook *)

Module Context.

(** [AuthContextType]: what [AuthProvider] hands to the tree below it.  The
    five functions are the ones above; each takes, first, the way its
    provider or host call will complete. *)
Record t : Type := mk {
  session : option Session;
  user : option User;
  isLoading : bool;
  signUp : Awaited AuthResponse → string → string → Async unit;
  signIn : Awaited AuthResponse → string → string → Async unit;
  signOut : Awaited AuthResponse → Async unit;
  getUserOrders : Awaited QueryResponse → Async (list Order);
  createOrder : OrderHost → list OrderLine → Async (option string)
}.

End Context.

(** The [value] that [AuthProvider] passes to [AuthContext.Provider] in a
    render of world [w]. *)
Definition provider_value (w : World) : Context.t :=
  {| Context.session := session w;
     Context.user := user w;
     Context.isLoading := isLoading w;
     Context.signUp := signUp;
     Context.signIn := signIn;
     Context.signOut := signOut;
     Context.getUserOrders := getUserOrders;
     Context.createOrder := createOrder |}.

(** [useContext(AuthContext)] in a component whose enclosing
    [AuthContext.Provider]s hold the values [enclosing], the nearest first:
    the nearest value, or the default [undefined] of [createContext]. *)
Definition useContext (enclosing : list Context.t) : option Context.t :=
  head enclosing.

Definition useAuth (enclosing : list Context.t) : Completion Context.t :=
  match useContext enclosing with
  | None =>
      Throw (Supabase.mkError "useAuth must be used within an AuthProvider")
  | Some context => Normal context
  end.

(** The providers enclosing the [children] of an [AuthProvider] rendered in
    world [w], itself under [enclosing]. *)
Definition AuthProvider_children (w : World) (enclosing : list Context.t)
  : list Context.t :=
  provider_value w :: enclosing.

(** Unmounting runs the cleanup of the effect. *)
Definition unmount (w : World) : World := run useEffect_cleanup w.

(** ** Counting and classifying, for the statements below *)

Fixpoint count_effects (p : Effect → bool) (l : list Effect) : nat :=
  match l with
  | [] => 0%nat
  | e :: l => ((if p e then 1 else 0) + count_effects p l)%nat
  end.

Definition is_subscribe (e : Effect) : bool :=
  match e with
  | ProviderCall Supabase.auth_onAuthStateChange => true
  | _ => false
  end.

Definition is_unsubscribe (e : Effect) : bool :=
  match e with
  | ProviderCall Supabase.subscription_unsubscribe => true
  | _ => false
  end.

Definition is_getSession (e : Effect) : bool :=
  match e with
  | ProviderCall Supabase.auth_getSession => true
  | _ => false
  end.

(** The actions after which "cart" and "favorites" are gone: a
    "SIGNED_OUT" event, and [signOut] resuming on a reply without error. *)
Definition clears_storage (a : Action) : bool :=
  match a with
  | StreamEvent event _ => String.eqb event "SIGNED_OUT"
  | SignOutSettled reply => is_null (auth_failure reply)
  | _ => false
  end.

(** The actions that run code of the component without calling the
    provider: the two callbacks, the resumption of [signOut] and
    [createOrder]. *)
Definition is_local (a : Action) : bool :=
  match a with
  | StreamEvent _ _ | SessionFetched _ | SignOutSettled _ | CreateOrder _ _ =>
      true
  | _ => false
  end.

Definition is_rerun (a : Action) : bool :=
  match a with EffectRerun => true | _ => false end.

(** How often a sequence of actions runs the effect again. *)
Fixpoint reruns (l : list Action) : nat :=
  match l with
  | [] => 0%nat
  | a :: l => ((if is_rerun a then 1 else 0) + reruns l)%nat
  end.

(** The notification of the "SIGNED_IN" branch of the stream callback. *)
Definition welcome_toast : Toast :=
  {| title := "Signed in successfully";
     description := "Welcome back to AgroConnect!";
     variant := None |}.

(** The notification of a successful [signUp]. *)
Definition account_created_toast : Toast :=
  {| title := "Account created successfully";
     description := "Please check your email to verify your account.";
     variant := None |}.

Definition without_cart_and_favorites (m : gmap string string)
  : gmap string string :=
  delete "favorites" (delete "cart" m).

(** The state cells, the closure of the callback and the storage of two
    worlds agree. *)
Definition same_state (w w' : World) : Prop :=
  session w' = session w ∧ user w' = user w ∧ isLoading w' = isLoading w ∧
  handler_user w' = handler_user w ∧ localStorage w' = localStorage w.


(** A lifecycle in which neither the stream nor the session fetch ever
    delivers: the effect runs again and a sign-in is refused. *)
Definition undelivered_lifecycle : list Action :=
  [EffectRerun; SignIn (Rejected boom) "ana@example.org" "secret"].

(** * Properties *)

Ltac async_unfold :=
  unfold run, result, signOut, signOut_resumed, signOut_suspended,
    signOut_after_await, signOut_catch, signUp, signIn, getUserOrders,
    createOrder, onAuthStateChange_callback, getSession_then,
    useEffect_body, useEffect_cleanup, await, settle, issue, host,
    setSession, setUser, setIsLoading, toast, localStorage_removeItem,
    try_finally, try_catch, perform, read, throw,
    mbind, mret, Async_bind, Async_ret, bind, ret.

(** Case analysis on whatever the goal still branches on. *)
Ltac case_split :=
  repeat match goal with
         | |- context [match ?x with _ => _ end] =>
             lazymatch x with
             | context [match _ with _ => _ end] => fail
             | _ => destruct x eqn:?; cbn
             end
         end.

(** Reduces [emitted w w'] once [w'] is [w] with effects appended. *)
Ltac emitted_simpl :=
  unfold emitted; cbn; rewrite <- ?app_assoc;
  rewrite ?drop_app_length, ?drop_all; cbn.

Ltac async_crush := async_unfold; cbn; case_split; cbn; auto.

(** ** What each action does to the three state cells *)

Lemma step_isLoading (a : Action) (w : World) :
  isLoading (step a w) =
    match a with
    | StreamEvent _ _ | SessionFetched _ | SignOutSettled _ => false
    | SignOutCalled => true
    | _ => isLoading w
    end.
Proof. destruct a; cbn [step]; async_crush. Qed.

Lemma session_user_consistent (s : option Session) :
  session_user s ≠ None ↔ s ≠ None.
Proof. destruct s; cbn; split; congruence. Qed.

Lemma step_mirror (a : Action) (w : World) :
  (user (step a w) = user w ∧ session (step a w) = session w) ∨
  (∃ s, user (step a w) = session_user s ∧ session (step a w) = s).
Proof.
  destruct a; cbn [step]; async_unfold; cbn; case_split; cbn;
    first [ left; split; reflexivity
          | right; eexists; split; [| reflexivity]; reflexivity ].
Qed.

Lemma step_consistent (a : Action) (w : World) :
  mirrored_consistent w → mirrored_consistent (step a w).
Proof.
  unfold mirrored_consistent. intros H.
  destruct (step_mirror a w) as [[-> ->] | (s & -> & ->)]; auto.
  apply session_user_consistent.
Qed.

Lemma worlds_consistent (l : list Action) (w : World) :
  mirrored_consistent w → Forall mirrored_consistent (worlds l w).
Proof.
  revert w. induction l as [|a l IH]; intros w H; cbn.
  - constructor; auto.
  - constructor; auto. apply IH, step_consistent, H.
Qed.

(** C1. After the stream callback has processed an event, and after the
    callback of the initial session fetch has run, the mirrored [user] is
    non-null exactly when the mirrored [session] is non-null; this holds
    whatever the world was before, and so in every world that a mounted
    component visits under any sequence of actions. *)
Theorem user_non_null_iff_session_non_null :
  (∀ (w : World) (u : option User) (event : string) (s : option Session),
      mirrored_consistent (run (onAuthStateChange_callback u event s) w)) ∧
  (∀ (w : World) (s : option Session),
      mirrored_consistent (run (getSession_then s) w)) ∧
  (∀ (storage : gmap string string) (origin : string) (l : list Action),
      Forall mirrored_consistent (worlds l (mount storage origin))).
Proof.
  split; [|split].
  - intros w u event s. unfold mirrored_consistent.
    async_unfold; cbn; case_split; cbn; apply session_user_consistent.
  - intros w s. unfold mirrored_consistent.
    async_unfold; cbn. apply session_user_consistent.
  - intros storage origin l. apply worlds_consistent.
    unfold mirrored_consistent, mount. async_unfold; cbn. tauto.
Qed.

(** ** Sign-up, sign-in and sign-out *)


(** C2. When the provider reports success, [signOut] returns normally and
    leaves [session] and [user] null, [isLoading] false and the local
    storage without the keys "cart" and "favorites", whatever the world
    was before; the same holds when other callbacks ran while the call
    was awaited. *)
Theorem signOut_success_clears_state (w : World) :
  let after_call := run (signOut auth_ok) w in
  let after_resume := run (signOut_resumed auth_ok) w in
  result (signOut auth_ok) w = Normal tt ∧
  (session after_call = None ∧ user after_call = None ∧
   isLoading after_call = false ∧
   localStorage after_call !! "cart" = None ∧
   localStorage after_call !! "favorites" = None) ∧
  (session after_resume = None ∧ user after_resume = None ∧
   isLoading after_resume = false ∧
   localStorage after_resume !! "cart" = None ∧
   localStorage after_resume !! "favorites" = None).
Proof.
  cbn. repeat split; try reflexivity.
  all: unfold auth_ok; async_unfold; cbn.
  all: first [ apply lookup_delete_eq
             | rewrite lookup_delete_ne by done; apply lookup_delete_eq ].
Qed.

(** C3. When the provider call of [signUp], [signIn] or [signOut] fails
    with an error, the function shows exactly one notification, which is
    destructive and carries the message of that error, and completes by
    throwing that same error. *)
Theorem auth_failure_notified_and_rethrown
    (w : World) (reply : Awaited AuthResponse) (e : JsError)
    (email password : string) :
  auth_failure reply = Some e →
  (result (signUp reply email password) w = Throw e ∧
   toasts_of (emitted w (run (signUp reply email password) w))
     = [error_toast "Error signing up" e]) ∧
  (result (signIn reply email password) w = Throw e ∧
   toasts_of (emitted w (run (signIn reply email password) w))
     = [error_toast "Error signing in" e]) ∧
  (result (signOut reply) w = Throw e ∧
   toasts_of (emitted w (run (signOut reply) w))
     = [error_toast "Error signing out" e]) ∧
  destructive (error_toast "Error signing up" e) = true ∧
  destructive (error_toast "Error signing in" e) = true ∧
  destructive (error_toast "Error signing out" e) = true.
Proof.
  intros F.
  destruct reply as [[[e'|]]|e']; cbn in F; simplify_eq.
  all: repeat split; try reflexivity.
  all: async_unfold; emitted_simpl; reflexivity.
Qed.

Lemma auth_failure_notified_and_rethrown_witness :
  result (signOut (Rejected boom)) W0 = Throw boom ∧
  toasts_of (emitted W0 (run (signOut (Rejected boom)) W0))
    = [error_toast "Error signing out" boom].
Proof.
  apply (auth_failure_notified_and_rethrown W0 (Rejected boom) boom
           "ana@example.org" "secret" eq_refl).
Defined.

(** C9. When the provider call of [signOut] fails, [session], [user] and
    the whole local storage (so also the keys "cart" and "favorites") are
    as they were before the call, and [isLoading] is false; of the state
    cells only the loading flag was written. *)
Theorem signOut_failure_keeps_state
    (w : World) (reply : Awaited AuthResponse) (e : JsError) :
  auth_failure reply = Some e →
  let w' := run (signOut reply) w in
  result (signOut reply) w = Throw e ∧
  session w' = session w ∧
  user w' = user w ∧
  localStorage w' = localStorage w ∧
  localStorage w' !! "cart" = localStorage w !! "cart" ∧
  localStorage w' !! "favorites" = localStorage w !! "favorites" ∧
  isLoading w' = false ∧
  handler_user w' = handler_user w ∧
  location_origin w' = location_origin w.
Proof.
  intros F.
  destruct reply as [[[e'|]]|e']; cbn in F; simplify_eq.
  all: cbn; repeat split; reflexivity.
Qed.

Lemma signOut_failure_keeps_state_witness :
  let w := step (StreamEvent "SIGNED_IN" (Some S1)) W0 in
  let w' := run (signOut (Resolved (Supabase.mkAuthResponse (Some boom)))) w in
  session w' = Some S1 ∧ user w' = Some U1 ∧
  localStorage w' !! "cart" = Some "[1,2]" ∧
  localStorage w' !! "favorites" = Some "[7]" ∧
  isLoading w' = false.
Proof.
  pose proof (signOut_failure_keeps_state
                (step (StreamEvent "SIGNED_IN" (Some S1)) W0)
                (Resolved (Supabase.mkAuthResponse (Some boom))) boom eq_refl)
    as (_ & Hs & Hu & _ & Hc & Hf & Hl & _).
  cbv zeta. rewrite Hs, Hu, Hc, Hf, Hl.
  repeat split; vm_compute; reflexivity.
Defined.

(** ** Orders *)

(** C4. Called while [user] is null, [getUserOrders] returns the empty
    list and leaves the world as it was: no effect is emitted, so the
    query interface of the provider is not called. *)
Theorem getUserOrders_without_user
    (w : World) (reply : Awaited QueryResponse) :
  user w = None →
  result (getUserOrders reply) w = Normal [] ∧
  run (getUserOrders reply) w = w ∧
  calls_of (emitted w (run (getUserOrders reply) w)) = [] ∧
  emitted w (run (getUserOrders reply) w) = [].
Proof.
  intros U. async_unfold. cbn. rewrite U. cbn.
  unfold emitted. rewrite drop_all. auto.
Qed.

Lemma getUserOrders_without_user_witness :
  result (getUserOrders (Resolved (Supabase.mkQueryResponse
                                     (Some three_orders) None))) W0
    = Normal [] ∧
  calls_of (emitted W0 (run (getUserOrders
              (Resolved (Supabase.mkQueryResponse (Some three_orders) None)))
              W0)) = [].
Proof.
  pose proof (getUserOrders_without_user W0
                (Resolved (Supabase.mkQueryResponse (Some three_orders) None))
                eq_refl) as (H1 & _ & H2 & _).
  split; [exact H1 | exact H2].
Defined.

Lemma sorted_by_created_at_newest_first (rows : list Order) :
  sorted_by_created_at false rows = true → StronglySorted newest_first rows.
Proof.
  intros H. apply Sorted_StronglySorted.
  - intros a b c Hab Hbc. unfold newest_first in *. lia.
  - induction rows as [|a rows IH]; [constructor |].
    destruct rows as [|b t].
    + constructor; constructor.
    + cbn in H. apply andb_prop in H as [H1 H2].
      constructor; [apply IH, H2 |].
      constructor. apply Z.leb_le, H1.
Qed.




(** Rows delivered newest first come back newest first. *)
Example getUserOrders_newest_first_example :
  let reply := Resolved (Supabase.mkQueryResponse (Some three_orders) None) in
  result (getUserOrders reply) W1 = Normal three_orders ∧
  StronglySorted newest_first three_orders.
Proof.
  split; [reflexivity |].
  apply sorted_by_created_at_newest_first. reflexivity.
Qed.

(** A failed query, for comparison: one notification, empty result. *)
Example getUserOrders_failure_example :
  let w := step (StreamEvent "SIGNED_IN" (Some S1)) W0 in
  let reply := Resolved (Supabase.mkQueryResponse None (Some boom)) in
  result (getUserOrders reply) w = Normal [] ∧
  toasts_of (emitted w (run (getUserOrders reply) w))
    = [error_toast "Error fetching orders" boom].
Proof. split; reflexivity. Qed.

(** C10. Whether and what [getUserOrders] asks the provider depends only
    on a user being present: for any two worlds with a user, whoever it
    is, the same reply leads to the same single call, the constant
    [orders_query], which carries no filter, and to the same result and
    notifications. *)
Theorem getUserOrders_independent_of_user
    (w1 w2 : World) (u1 u2 : User) (reply : Awaited QueryResponse) :
  user w1 = Some u1 →
  user w2 = Some u2 →
  calls_of (emitted w1 (run (getUserOrders reply) w1))
    = [Supabase.run_query orders_query] ∧
  calls_of (emitted w2 (run (getUserOrders reply) w2))
    = [Supabase.run_query orders_query] ∧
  Supabase.filters orders_query = [] ∧
  emitted w1 (run (getUserOrders reply) w1)
    = emitted w2 (run (getUserOrders reply) w2) ∧
  result (getUserOrders reply) w1 = result (getUserOrders reply) w2.
Proof.
  intros E1 E2.
  destruct reply as [[[rows|] [e|]]|e].
  all: async_unfold; emitted_simpl; rewrite E1, E2; cbn; emitted_simpl.
  all: repeat split; reflexivity.
Qed.

Lemma getUserOrders_independent_of_user_witness :
  let w1 := step (StreamEvent "SIGNED_IN" (Some S1)) W0 in
  let w2 := step (SessionFetched (Some S2)) W0 in
  let reply := Resolved (Supabase.mkQueryResponse (Some three_orders) None) in
  calls_of (emitted w1 (run (getUserOrders reply) w1))
    = calls_of (emitted w2 (run (getUserOrders reply) w2)) ∧
  result (getUserOrders reply) w1 = result (getUserOrders reply) w2.
Proof.
  pose proof (getUserOrders_independent_of_user
                (step (StreamEvent "SIGNED_IN" (Some S1)) W0)
                (step (SessionFetched (Some S2)) W0) U1 U2
                (Resolved (Supabase.mkQueryResponse (Some three_orders) None))
                eq_refl eq_refl) as (H1 & H2 & _ & _ & H3).
  cbv zeta. rewrite H1, H2. split; [reflexivity | exact H3].
Defined.

(** C6. [createOrder] never throws, never calls the provider and never
    writes the state cells or the local storage, whatever the items are.
    Without a user it returns null and does nothing.  With a user it
    starts a timer of 1000 ms and returns the identifier it made up; if
    one of the host calls inside its [try] block throws instead, the
    error is logged to the console and the result is null. *)
Theorem createOrder_placeholder
    (h : OrderHost) (items : list OrderLine) (w : World) :
  let w' := run (createOrder h items) w in
  calls_of (emitted w w') = [] ∧
  toasts_of (emitted w w') = [] ∧
  session w' = session w ∧ user w' = user w ∧ isLoading w' = isLoading w ∧
  localStorage w' = localStorage w ∧
  match user w with
  | None => result (createOrder h items) w = Normal None ∧ w' = w
  | Some _ =>
      match Date_now h, Math_random_toString36 h, timer h with
      | Normal now, Normal rnd, Normal _ =>
          result (createOrder h items) w
            = Normal (Some ("order_" ++ pretty now ++ "_"
                              ++ substring 2 9 rnd)) ∧
          emitted w w' = [SetTimeout 1000]
      | Throw e, _, _ | Normal _, Throw e, _ =>
          result (createOrder h items) w = Normal None ∧
          emitted w w' = [ConsoleError "Order creation error:" e]
      | Normal _, Normal _, Throw e =>
          result (createOrder h items) w = Normal None ∧
          emitted w w'
            = [SetTimeout 1000; ConsoleError "Order creation error:" e]
      end
  end.
Proof.
  destruct h as [[now|e1] [rnd|e2] [[]|e3]]; destruct w as [s [u|] l hu ls o ef].
  all: async_unfold; emitted_simpl.
  all: repeat split; reflexivity.
Qed.

(** With a user and a working host the identifier comes back. *)
Example createOrder_example :
  result (createOrder (mkOrderHost (Normal 1700000000000)
                                   (Normal "0.4fzyo82mvyrq") (Normal tt))
                      [mkOrderLine 4 2 1250])
         (step (StreamEvent "SIGNED_IN" (Some S1)) W0)
    = Normal (Some "order_1700000000000_4fzyo82mv").
Proof. vm_compute. reflexivity. Qed.

(** ** The stream callback on a "signed out" event *)

Lemma signed_out_toast_shown (u : option User) (s : option Session) :
  signed_out_toast
    ∈ (if is_null s && negb (is_null u) then [signed_out_toast] else [])
  ↔ u ≠ None ∧ s = None.
Proof.
  destruct u, s; cbn; split.
  all: try (intros H; apply elem_of_nil in H; destruct H).
  all: try (intros [H1 H2]; congruence).
  - intros _; split; congruence.
  - intros _. apply list_elem_of_singleton. reflexivity.
Qed.

Lemma signed_out_toasts (u : option User) (s : option Session) (w : World) :
  toasts_of (emitted w (run (onAuthStateChange_callback u "SIGNED_OUT" s) w))
  = if is_null s && negb (is_null u) then [signed_out_toast] else [].
Proof. destruct u, s; async_unfold; emitted_simpl; reflexivity. Qed.

(** C7. On a "SIGNED_OUT" event the callback shows the sign-out
    notification exactly when the [user] it closed over (the local user
    of the render that subscribed it) is non-null and the session of the
    event is null, and shows no other notification; in every case it
    removes the keys "cart" and "favorites" from the local storage and
    ends with [isLoading] false.  Once the effect has subscribed the
    callback afresh, the user it closed over is the [user] of the state
    before the event. *)
Theorem signed_out_event_handling
    (u : option User) (s : option Session) (w : World) :
  let w' := run (onAuthStateChange_callback u "SIGNED_OUT" s) w in
  result (onAuthStateChange_callback u "SIGNED_OUT" s) w = Normal tt ∧
  toasts_of (emitted w w')
    = (if is_null s && negb (is_null u) then [signed_out_toast] else []) ∧
  (signed_out_toast ∈ toasts_of (emitted w w') ↔ u ≠ None ∧ s = None) ∧
  localStorage w' = delete "favorites" (delete "cart" (localStorage w)) ∧
  localStorage w' !! "cart" = None ∧
  localStorage w' !! "favorites" = None ∧
  isLoading w' = false ∧
  (let w1 := step EffectRerun w in
   signed_out_toast
     ∈ toasts_of (emitted w1 (step (StreamEvent "SIGNED_OUT" s) w1))
   ↔ user w ≠ None ∧ s = None).
Proof.
  intros w'.
  pose proof (signed_out_toasts u s w) as T. fold w' in T.
  split; [destruct u, s; reflexivity |].
  split; [exact T |].
  split; [rewrite T; apply signed_out_toast_shown |].
  assert (L : localStorage w'
              = delete "favorites" (delete "cart" (localStorage w))).
  { subst w'. destruct u, s; reflexivity. }
  assert (F : isLoading w' = false).
  { subst w'. destruct u, s; reflexivity. }
  rewrite L, F.
  split; [reflexivity |].
  split; [rewrite lookup_delete_ne by done; apply lookup_delete_eq |].
  split; [apply lookup_delete_eq |].
  split; [reflexivity |].
  intros w1.
  cbn [step]. rewrite signed_out_toasts.
  replace (handler_user w1) with (user w) by reflexivity.
  apply signed_out_toast_shown.
Qed.

(** A "SIGNED_IN" event on a fresh mount: the session is mirrored, the
    flag cleared and one welcome notification shown. *)
Example signed_in_event_example :
  let w := step (StreamEvent "SIGNED_IN" (Some S1)) W0 in
  session w = Some S1 ∧ user w = Some U1 ∧ isLoading w = false ∧
  toasts_of (emitted W0 w)
    = [ {| title := "Signed in successfully";
           description := "Welcome back to AgroConnect!";
           variant := None |} ].
Proof. repeat split; vm_compute; reflexivity. Qed.

(** Whether a sign-out started by [signOut] is also announced by the
    callback depends on when the "SIGNED_OUT" event lands: it is
    announced when the event lands while the call is suspended or right
    after it resumed, and not announced once the effect has subscribed a
    callback over the cleared [user]. *)
Example self_signOut_notification_example :
  toasts_of (emitted W1 (final [ SignOutCalled; StreamEvent "SIGNED_OUT" None;
                                 SignOutSettled auth_ok ] W1))
    = [signed_out_toast] ∧
  toasts_of (emitted W1 (final [ SignOutCalled; SignOutSettled auth_ok;
                                 StreamEvent "SIGNED_OUT" None ] W1))
    = [signed_out_toast] ∧
  toasts_of (emitted W1 (final [ SignOutCalled; SignOutSettled auth_ok;
                                 EffectRerun;
                                 StreamEvent "SIGNED_OUT" None ] W1))
    = [].
Proof. repeat split; vm_compute; reflexivity. Qed.

(** The closure can lag behind the state: right after a "SIGNED_IN" event,
    before the effect has subscribed a fresh callback, the callback still
    holds the null [user] of the first render and stays silent. *)
Example stale_closure_example :
  let w := step (StreamEvent "SIGNED_IN" (Some S1)) W0 in
  user w = Some U1 ∧ handler_user w = None ∧
  toasts_of (emitted w (step (StreamEvent "SIGNED_OUT" None) w)) = [] ∧
  toasts_of (emitted (step EffectRerun w)
               (step (StreamEvent "SIGNED_OUT" None) (step EffectRerun w)))
    = [signed_out_toast].
Proof. repeat split; vm_compute; reflexivity. Qed.

(** ** The loading flag over a mount lifecycle *)










(** There the flag is still true at the end. *)
Example undelivered_lifecycle_example :
  loading_history undelivered_lifecycle W0 = [true; true; true] ∧
  isLoading (final undelivered_lifecycle W0) = true.
Proof. split; vm_compute; reflexivity. Qed.

(** A lifecycle with a sign-out in the middle: the flag falls on the first
    event, rises with the call, and falls again when the stream reports
    the sign-out, before the call resumes. *)
Example loading_history_example :
  loading_history
    [ SessionFetched None; StreamEvent "SIGNED_IN" (Some S1); EffectRerun;
      SignOutCalled; StreamEvent "SIGNED_OUT" None; SignOutSettled auth_ok ]
    W0
  = [true; false; false; false; true; false; false].
Proof. vm_compute. reflexivity. Qed.

(** * Further properties of the component *)

(** ** Sign-up and sign-in when the provider accepts *)

(** X1. [signUp] passes the email and the password on unchanged, with the
    page origin followed by "/" as redirect target, in exactly one call
    whatever the reply; when the provider accepts it returns normally and
    shows one notification, the plain "Account created successfully". *)
Theorem signUp_success_notifies
    (w : World) (reply : Awaited AuthResponse) (email password : string) :
  calls_of (emitted w (run (signUp reply email password) w))
    = [Supabase.auth_signUp email password (location_origin w ++ "/")] ∧
  result (signUp auth_ok email password) w = Normal tt ∧
  emitted w (run (signUp auth_ok email password) w)
    = [ ProviderCall
          (Supabase.auth_signUp email password (location_origin w ++ "/"));
        Toasted account_created_toast ] ∧
  destructive account_created_toast = false.
Proof.
  split.
  - destruct reply as [[[e|]]|e]; async_unfold; emitted_simpl; reflexivity.
  - split; [reflexivity |].
    split; [| reflexivity].
    unfold auth_ok. async_unfold; emitted_simpl. reflexivity.
Qed.

(** X2. [signIn] passes the email and the password on unchanged in exactly
    one call whatever the reply; when the provider accepts it returns
    normally and shows no notification of its own. *)
Theorem signIn_success_is_silent
    (w : World) (reply : Awaited AuthResponse) (email password : string) :
  calls_of (emitted w (run (signIn reply email password) w))
    = [Supabase.auth_signInWithPassword email password] ∧
  result (signIn auth_ok email password) w = Normal tt ∧
  emitted w (run (signIn auth_ok email password) w)
    = [ProviderCall (Supabase.auth_signInWithPassword email password)].
Proof.
  split.
  - destruct reply as [[[e|]]|e]; async_unfold; emitted_simpl; reflexivity.
  - split; [reflexivity |].
    unfold auth_ok. async_unfold; emitted_simpl. reflexivity.
Qed.

(** X3. [signUp], [signIn] and [getUserOrders] write neither [session],
    [user], [isLoading] nor the local storage, whatever the provider
    replies: after sign-up or sign-in the state only moves when the
    stream delivers. *)
Theorem calls_leave_state_alone
    (w : World) (reply : Awaited AuthResponse)
    (rows : Awaited QueryResponse) (email password : string) :
  same_state w (run (signUp reply email password) w) ∧
  same_state w (run (signIn reply email password) w) ∧
  same_state w (run (getUserOrders rows) w).
Proof.
  unfold same_state.
  destruct reply as [[[e|]]|e], rows as [[[d|] [e'|]]|e'],
           (user w) as [u|] eqn:U.
  all: async_unfold; cbn; rewrite ?U; cbn; rewrite ?U.
  all: repeat split; reflexivity.
Qed.

(** X4. A failure reaches the caller in the same way whether the promise of
    the provider was rejected with an error or fulfilled with a result
    object carrying that error: the same completion, the same
    notification, the same world.  For a query the rows that came with
    the error make no difference. *)
Theorem rejection_and_error_result_alike
    (w : World) (e : JsError) (email password : string)
    (rows : option (list Order)) :
  signUp (Rejected e) email password w
    = signUp (Resolved (Supabase.mkAuthResponse (Some e))) email password w ∧
  signIn (Rejected e) email password w
    = signIn (Resolved (Supabase.mkAuthResponse (Some e))) email password w ∧
  signOut (Rejected e) w
    = signOut (Resolved (Supabase.mkAuthResponse (Some e))) w ∧
  getUserOrders (Rejected e) w
    = getUserOrders (Resolved (Supabase.mkQueryResponse rows (Some e))) w.
Proof.
  repeat split; reflexivity.
Qed.

(** ** The stream callback on any event *)

Lemma not_both_events (event : string) :
  String.eqb event "SIGNED_IN" = true →
  String.eqb event "SIGNED_OUT" = true → False.
Proof.
  intros H1 H2. apply String.eqb_eq in H1, H2. congruence.
Qed.

(** X5. For every event, closure and session the stream callback returns
    normally and calls the provider not at all.  It shows the welcome
    notification exactly when the event is "SIGNED_IN", also when that
    event carries no session; apart from the sign-out notification of a
    "SIGNED_OUT" event it shows nothing, so events such as
    "TOKEN_REFRESHED" or "INITIAL_SESSION" pass silently. *)
Theorem stream_callback_notifications
    (u : option User) (event : string) (s : option Session) (w : World) :
  let w' := run (onAuthStateChange_callback u event s) w in
  result (onAuthStateChange_callback u event s) w = Normal tt ∧
  calls_of (emitted w w') = [] ∧
  toasts_of (emitted w w')
    = (if String.eqb event "SIGNED_IN" then [welcome_toast]
       else if String.eqb event "SIGNED_OUT"
            then (if is_null s && negb (is_null u)
                  then [signed_out_toast] else [])
            else []) ∧
  (welcome_toast ∈ toasts_of (emitted w w') ↔ event = "SIGNED_IN").
Proof.
  intros w'.
  assert (T : toasts_of (emitted w w')
              = (if String.eqb event "SIGNED_IN" then [welcome_toast]
                 else if String.eqb event "SIGNED_OUT"
                      then (if is_null s && negb (is_null u)
                            then [signed_out_toast] else [])
                      else [])).
  { subst w'. async_unfold.
    destruct (String.eqb event "SIGNED_IN") eqn:E1,
             (String.eqb event "SIGNED_OUT") eqn:E2.
    - destruct (not_both_events event E1 E2).
    - emitted_simpl. reflexivity.
    - destruct u, s; emitted_simpl; reflexivity.
    - emitted_simpl. reflexivity. }
  split; [| split; [| split; [exact T |]]].
  - async_unfold.
    destruct (String.eqb event "SIGNED_IN"), (String.eqb event "SIGNED_OUT"),
             u, s; reflexivity.
  - subst w'. async_unfold.
    destruct (String.eqb event "SIGNED_IN"), (String.eqb event "SIGNED_OUT"),
             u, s; emitted_simpl; reflexivity.
  - rewrite T. rewrite <- String.eqb_eq.
    destruct (String.eqb event "SIGNED_IN"); [| destruct (String.eqb event "SIGNED_OUT")].
    + split; [reflexivity |]. intros _. apply list_elem_of_singleton. reflexivity.
    + split; [| discriminate]. intros H.
      destruct (is_null s && negb (is_null u)).
      * apply list_elem_of_singleton in H. discriminate H.
      * apply elem_of_nil in H. destruct H.
    + split; [| discriminate]. intros H. apply elem_of_nil in H. destruct H.
Qed.

(** ** The local storage *)

Lemma without_cart_and_favorites_idemp (m : gmap string string) :
  without_cart_and_favorites (without_cart_and_favorites m)
  = without_cart_and_favorites m.
Proof.
  unfold without_cart_and_favorites.
  rewrite (delete_delete (delete "cart" m) "cart" "favorites").
  rewrite !delete_delete_eq. reflexivity.
Qed.

Lemma step_localStorage (a : Action) (w : World) :
  localStorage (step a w)
  = if clears_storage a then without_cart_and_favorites (localStorage w)
    else localStorage w.
Proof.
  unfold without_cart_and_favorites.
  destruct a; cbn [step clears_storage]; async_unfold; cbn;
    case_split; cbn; try reflexivity; try discriminate.
Qed.

Lemma final_localStorage (l : list Action) (w : World) :
  localStorage (final l w)
  = if existsb clears_storage l
    then without_cart_and_favorites (localStorage w)
    else localStorage w.
Proof.
  revert w. induction l as [|a l IH]; intros w; [reflexivity |].
  change (final (a :: l) w) with (final l (step a w)).
  rewrite IH, step_localStorage. cbn [existsb].
  destruct (clears_storage a), (existsb clears_storage l); cbn;
    rewrite ?without_cart_and_favorites_idemp; reflexivity.
Qed.

(** X6. The component only ever removes "cart" and "favorites" from the
    local storage, and only in two places: the stream callback on a
    "SIGNED_OUT" event and [signOut] resuming on a reply without error.
    Every other action, among them a session fetch that finds the user
    signed out, leaves the storage as it is.  So over any sequence of
    actions the storage ends as it began, or as it began without the two
    keys; no key is added and no other key is touched. *)
Theorem storage_cleared_only_by_sign_out (l : list Action) (w : World) :
  (∀ a : Action,
      localStorage (step a w)
      = if clears_storage a then without_cart_and_favorites (localStorage w)
        else localStorage w) ∧
  localStorage (final l w)
  = (if existsb clears_storage l
     then without_cart_and_favorites (localStorage w)
     else localStorage w) ∧
  localStorage (final l w) ⊆ localStorage w ∧
  without_cart_and_favorites (localStorage (final l w))
  = without_cart_and_favorites (localStorage w).
Proof.
  split; [intros a; apply step_localStorage |].
  split; [apply final_localStorage |].
  rewrite final_localStorage.
  destruct (existsb clears_storage l).
  - split; [| apply without_cart_and_favorites_idemp].
    unfold without_cart_and_favorites.
    etrans; apply delete_subseteq.
  - split; reflexivity.
Qed.

(** A session fetch that finds nobody signed in clears [session] and
    [user] but, unlike a "SIGNED_OUT" event, keeps the cart. *)
Example fetch_keeps_cart_example :
  let w := step (SessionFetched None) W1 in
  user W1 = Some U1 ∧ user w = None ∧
  localStorage w !! "cart" = Some "[1,2]" ∧
  localStorage (step (StreamEvent "SIGNED_OUT" None) W1) !! "cart" = None.
Proof. repeat split; vm_compute; reflexivity. Qed.

(** ** The mirrored state over a lifecycle *)

Lemma final_cons (a : Action) (l : list Action) (w : World) :
  final (a :: l) w = final l (step a w).
Proof. reflexivity. Qed.

Lemma step_user_of_session (a : Action) (w : World) :
  user w = session_user (session w) →
  user (step a w) = session_user (session (step a w)).
Proof.
  intros H.
  destruct (step_mirror a w) as [[-> ->] | (s & -> & ->)]; auto.
Qed.

(** X7. In every world a mounted component visits, under any sequence of
    actions, the mirrored [user] is the user of the mirrored [session]
    (and null when there is no session): the two cells never describe
    different accounts. *)
Theorem mirrored_user_is_session_user
    (storage : gmap string string) (origin : string) (l : list Action) :
  Forall (λ w, user w = session_user (session w))
         (worlds l (mount storage origin)) ∧
  user (final l (mount storage origin))
  = session_user (session (final l (mount storage origin))).
Proof.
  assert (H0 : user (mount storage origin)
               = session_user (session (mount storage origin)))
    by reflexivity.
  revert H0. generalize (mount storage origin).
  induction l as [|a l IH]; intros w H.
  - split; [repeat constructor; exact H | exact H].
  - destruct (IH (step a w) (step_user_of_session a w H)) as [IH1 IH2].
    split; [constructor; [exact H | exact IH1] | exact IH2].
Qed.

(** X8. The stream callback and the callback of the session fetch both
    overwrite the mirrored state without looking at it, so when both
    deliver, the later one decides: a session fetch that resolves after an
    event replaces the session of the event by its own, also by null, and
    an event after the fetch replaces the fetched session. *)
Theorem stream_and_fetch_last_writer_wins
    (w : World) (event : string) (s1 s2 : option Session) :
  let fetch_last := final [StreamEvent event s1; SessionFetched s2] w in
  let event_last := final [SessionFetched s2; StreamEvent event s1] w in
  (session fetch_last = s2 ∧ user fetch_last = session_user s2 ∧
   isLoading fetch_last = false) ∧
  (session event_last = s1 ∧ user event_last = session_user s1 ∧
   isLoading event_last = false).
Proof.
  cbn [final fold_left step].
  split.
  - repeat split; reflexivity.
  - async_unfold; cbn; case_split; repeat split; reflexivity.
Qed.

(** A fetch that resolves late with no session signs the component out
    locally although the stream had delivered a session. *)
Example stale_fetch_example :
  let w := final [StreamEvent "SIGNED_IN" (Some S1); SessionFetched None] W0 in
  session w = None ∧ user w = None.
Proof. split; reflexivity. Qed.

(** ** Subscriptions *)

Lemma count_effects_app (p : Effect → bool) (l1 l2 : list Effect) :
  count_effects p (l1 ++ l2)
  = (count_effects p l1 + count_effects p l2)%nat.
Proof. induction l1 as [|e l1 IH]; cbn; [reflexivity | rewrite IH; lia]. Qed.

Lemma step_subscriptions (a : Action) (w : World) :
  let n := (if is_rerun a then 1 else 0)%nat in
  count_effects is_subscribe (effects (step a w))
  = (count_effects is_subscribe (effects w) + n)%nat ∧
  count_effects is_unsubscribe (effects (step a w))
  = (count_effects is_unsubscribe (effects w) + n)%nat ∧
  count_effects is_getSession (effects (step a w))
  = (count_effects is_getSession (effects w) + n)%nat.
Proof.
  destruct a; cbn [step is_rerun]; async_unfold; cbn; case_split;
    rewrite ?count_effects_app; cbn; repeat split; lia.
Qed.

Lemma final_subscriptions (l : list Action) (w : World) :
  count_effects is_subscribe (effects (final l w))
  = (count_effects is_subscribe (effects w) + reruns l)%nat ∧
  count_effects is_unsubscribe (effects (final l w))
  = (count_effects is_unsubscribe (effects w) + reruns l)%nat ∧
  count_effects is_getSession (effects (final l w))
  = (count_effects is_getSession (effects w) + reruns l)%nat.
Proof.
  revert w. induction l as [|a l IH]; intros w.
  - cbn. repeat split; lia.
  - rewrite final_cons. cbn [reruns].
    destruct (IH (step a w)) as (-> & -> & ->).
    destruct (step_subscriptions a w) as (-> & -> & ->).
    repeat split; lia.
Qed.

(** X9. Whatever happens to a mounted component, it holds exactly one
    subscription to the authentication stream: the subscriptions made
    exceed the subscriptions released by one, and unmounting releases the
    last.  Every subscription comes with a session fetch of its own, so
    the fetch is repeated each time the effect runs again. *)
Theorem subscription_accounting
    (storage : gmap string string) (origin : string) (l : list Action) :
  let w := final l (mount storage origin) in
  count_effects is_subscribe (effects w)
  = S (count_effects is_unsubscribe (effects w)) ∧
  count_effects is_getSession (effects w)
  = count_effects is_subscribe (effects w) ∧
  count_effects is_subscribe (effects w) = S (reruns l) ∧
  count_effects is_subscribe (effects (unmount w))
  = count_effects is_unsubscribe (effects (unmount w)).
Proof.
  intros w. subst w.
  destruct (final_subscriptions l (mount storage origin)) as (Hs & Hu & Hg).
  assert (E : count_effects is_subscribe (effects (unmount
                (final l (mount storage origin))))
              = count_effects is_subscribe
                  (effects (final l (mount storage origin))) ∧
              count_effects is_unsubscribe (effects (unmount
                (final l (mount storage origin))))
              = S (count_effects is_unsubscribe
                     (effects (final l (mount storage origin))))).
  { unfold unmount. async_unfold; cbn. rewrite !count_effects_app. cbn.
    split; lia. }
  destruct E as [-> ->]. rewrite Hs, Hu, Hg. cbn. repeat split; lia.
Qed.

(** ** Notifications over a lifecycle *)

Lemma toasts_of_app (l1 l2 : list Effect) :
  toasts_of (l1 ++ l2) = (toasts_of l1 ++ toasts_of l2)%list.
Proof.
  induction l1 as [|e l1 IH]; [reflexivity |].
  destruct e; cbn; rewrite IH; reflexivity.
Qed.

(** The effects only grow, by what the action emitted. *)
Lemma step_effects (a : Action) (w : World) :
  effects (step a w) = (effects w ++ emitted w (step a w))%list.
Proof.
  unfold emitted.
  destruct a; cbn [step]; async_unfold; cbn; case_split;
    rewrite <- ?app_assoc; rewrite ?drop_app_length, ?drop_all;
    rewrite ?app_nil_r; reflexivity.
Qed.

Lemma step_one_toast (a : Action) (w : World) :
  (length (toasts_of (emitted w (step a w))) ≤ 1)%nat.
Proof.
  unfold emitted.
  destruct a; cbn [step]; async_unfold; cbn; case_split;
    rewrite <- ?app_assoc; rewrite ?drop_app_length, ?drop_all; cbn;
    try lia.
  exfalso. eapply not_both_events; eassumption.
Qed.

(** X10. No action of the lifecycle shows more than one notification, so a
    component that has gone through [n] actions has shown at most [n];
    the callback of the session fetch shows none and calls the provider
    no more than the resumption of [signOut] does. *)
Theorem one_notification_per_action
    (l : list Action) (w : World) (s : option Session)
    (reply : Awaited AuthResponse) :
  (∀ a : Action, (length (toasts_of (emitted w (step a w))) ≤ 1)%nat) ∧
  (length (toasts_of (effects (final l w)))
   ≤ length (toasts_of (effects w)) + length l)%nat ∧
  emitted w (run (getSession_then s) w) = [] ∧
  calls_of (emitted w (run (signOut_resumed reply) w)) = [].
Proof.
  split; [intros a; apply step_one_toast |].
  split.
  - revert w. induction l as [|a l IH]; intros w; [cbn; lia |].
    rewrite final_cons. specialize (IH (step a w)).
    rewrite step_effects, toasts_of_app, length_app in IH.
    pose proof (step_one_toast a w). cbn [length]. lia.
  - split.
    + async_unfold; emitted_simpl. reflexivity.
    + destruct reply as [[[e|]]|e]; async_unfold; emitted_simpl; reflexivity.
Qed.

(** ** Orders, whatever the reply *)

(** X11. [getUserOrders] never throws, with or without a user and whatever
    the provider replies.  It returns the delivered rows only when a user
    is present and the reply carries no error; a reply with rows and an
    error gives the empty list, as does a reply with neither.  It shows a
    notification exactly for a failed query made with a user present. *)
Theorem getUserOrders_result (w : World) (reply : Awaited QueryResponse) :
  result (getUserOrders reply) w
  = Normal (if is_null (user w) then []
            else if is_null (query_failure reply) then delivered reply
                 else []) ∧
  toasts_of (emitted w (run (getUserOrders reply) w))
  = (if is_null (user w) then []
     else match query_failure reply with
          | Some e => [error_toast "Error fetching orders" e]
          | None => []
          end) ∧
  delivered (Resolved (Supabase.mkQueryResponse None None)) = [].
Proof.
  destruct reply as [[[rows|] [e|]]|e], (user w) as [u|] eqn:U.
  all: async_unfold; emitted_simpl; rewrite U; cbn; emitted_simpl.
  all: repeat split; reflexivity.
Qed.

(** Rows that come together with an error are dropped. *)
Example getUserOrders_rows_with_error_example :
  result (getUserOrders
            (Resolved (Supabase.mkQueryResponse (Some three_orders)
                                                (Some boom)))) W1
  = Normal [].
Proof. reflexivity. Qed.

(** ** The fabricated order identifier *)

Lemma substring_length_le (n m : nat) (s : string) :
  (String.length (substring n m s) ≤ m)%nat.
Proof.
  revert n m. induction s as [|c s IH]; intros n m.
  - destruct n, m; cbn; lia.
  - destruct n as [|n].
    + destruct m as [|m]; cbn; [lia |]. specialize (IH 0%nat m). lia.
    + cbn. apply IH.
Qed.

(** X12. An identifier returned by [createOrder] begins with "order_",
    continues with the clock reading in decimal and "_", and ends with at
    most nine characters of the random text, taken after its first two;
    it exists only with a user present and a host that did not throw. *)
Theorem createOrder_identifier_shape
    (h : OrderHost) (items : list OrderLine) (w : World) (id : string) :
  result (createOrder h items) w = Normal (Some id) →
  String.prefix "order_" id = true ∧
  user w ≠ None ∧
  ∃ (now : Z) (rnd : string),
    Date_now h = Normal now ∧
    Math_random_toString36 h = Normal rnd ∧
    timer h = Normal tt ∧
    id = "order_" ++ pretty now ++ "_" ++ substring 2 9 rnd ∧
    (String.length (substring 2 9 rnd) ≤ 9)%nat.
Proof.
  destruct h as [[now|e1] [rnd|e2] [[]|e3]], (user w) as [u|] eqn:U.
  all: async_unfold; cbn; rewrite U; cbn; intros H; try discriminate H.
  injection H as <-.
  split; [| split; [discriminate |]].
  - cbn. destruct (pretty now ++ "_" ++ substring 2 9 rnd); reflexivity.
  - exists now, rnd. repeat split. apply substring_length_le.
Qed.

Lemma createOrder_identifier_shape_witness :
  String.prefix "order_" "order_1700000000000_4fzyo82mv" = true ∧
  user W1 ≠ None.
Proof.
  pose proof (createOrder_identifier_shape
                (mkOrderHost (Normal 1700000000000) (Normal "0.4fzyo82mvyrq")
                             (Normal tt))
                [mkOrderLine 4 2 1250] W1 "order_1700000000000_4fzyo82mv"
                eq_refl) as (H1 & H2 & _).
  split; [exact H1 | exact H2].
Defined.

(** When the random number is 0 its text is "0" and the identifier ends
    with the underscore. *)
Example createOrder_zero_random_example :
  result (createOrder (mkOrderHost (Normal 1700000000000) (Normal "0")
                                   (Normal tt)) []) W1
  = Normal (Some "order_1700000000000_").
Proof. vm_compute. reflexivity. Qed.

(** ** A successful sign-out, repeated and echoed *)

(** The world a successful [signOut] leaves, resumed or run in one go. *)
Lemma signOut_resumed_ok (w : World) :
  run (signOut_resumed auth_ok) w
  = mkWorld None None false (handler_user w)
            (without_cart_and_favorites (localStorage w))
            (location_origin w) (effects w).
Proof. reflexivity. Qed.

Lemma signOut_ok (w : World) :
  run (signOut auth_ok) w
  = mkWorld None None false (handler_user w)
            (without_cart_and_favorites (localStorage w))
            (location_origin w)
            (effects w ++ [ProviderCall Supabase.auth_signOut]).
Proof. reflexivity. Qed.

Lemma stream_event_state (event : string) (s : option Session) (w : World) :
  session (step (StreamEvent event s) w) = s ∧
  user (step (StreamEvent event s) w) = session_user s ∧
  handler_user (step (StreamEvent event s) w) = handler_user w.
Proof.
  cbn [step]. async_unfold; cbn; case_split; repeat split; reflexivity.
Qed.

(** X13. A successful [signOut] calls the provider once and shows no
    notification of its own.  Resuming a second successful [signOut]
    after the first changes nothing at all, and the "SIGNED_OUT" event
    that echoes the sign-out finds [session], [user], the flag and the
    storage already as it would leave them. *)
Theorem signOut_success_idempotent (w : World) :
  let w1 := run (signOut auth_ok) w in
  emitted w w1 = [ProviderCall Supabase.auth_signOut] ∧
  run (signOut_resumed auth_ok) w1 = w1 ∧
  run (signOut_resumed auth_ok) (run (signOut_resumed auth_ok) w)
  = run (signOut_resumed auth_ok) w ∧
  same_state w1 (step (StreamEvent "SIGNED_OUT" None) w1).
Proof.
  intros w1.
  split; [unfold w1, auth_ok; async_unfold; emitted_simpl; reflexivity |].
  split; [| split].
  - unfold w1. rewrite signOut_resumed_ok, signOut_ok.
    cbn [handler_user localStorage location_origin effects].
    rewrite without_cart_and_favorites_idemp. reflexivity.
  - rewrite !signOut_resumed_ok.
    cbn [handler_user localStorage location_origin effects].
    rewrite without_cart_and_favorites_idemp. reflexivity.
  - destruct (stream_event_state "SIGNED_OUT" None w1) as (Hs & Hu & Hh).
    unfold same_state. rewrite Hs, Hu, Hh, step_isLoading, step_localStorage.
    replace (clears_storage (StreamEvent "SIGNED_OUT" None)) with true
      by reflexivity.
    unfold w1. rewrite signOut_ok.
    cbn [session user isLoading handler_user localStorage session_user].
    rewrite without_cart_and_favorites_idemp. repeat split; reflexivity.
Qed.

(** ** The effect *)

(** X14. Each run of the effect subscribes the callback first and starts
    the session fetch after, and a re-run releases the old subscription
    before either; the callback subscribed by a run closes over the
    [user] of that moment, and no state cell is written by the effect
    itself. *)
Theorem effect_subscribes_before_fetching
    (storage : gmap string string) (origin : string) (w : World) :
  effects (mount storage origin)
  = [ ProviderCall Supabase.auth_onAuthStateChange;
      ProviderCall Supabase.auth_getSession ] ∧
  emitted w (step EffectRerun w)
  = [ ProviderCall Supabase.subscription_unsubscribe;
      ProviderCall Supabase.auth_onAuthStateChange;
      ProviderCall Supabase.auth_getSession ] ∧
  handler_user (step EffectRerun w) = user w ∧
  session (step EffectRerun w) = session w ∧
  user (step EffectRerun w) = user w ∧
  isLoading (step EffectRerun w) = isLoading w ∧
  localStorage (step EffectRerun w) = localStorage w.
Proof.
  split; [reflexivity |].
  split; [cbn [step]; async_unfold; emitted_simpl; reflexivity |].
  repeat split; reflexivity.
Qed.

(** ** The consumer hook *)

Lemma final_user_of_session (l : list Action) (w : World) :
  user w = session_user (session w) →
  user (final l w) = session_user (session (final l w)).
Proof.
  revert w. induction l as [|a l IH]; intros w H; [exact H |].
  rewrite final_cons. apply IH, step_user_of_session, H.
Qed.

(** X15. [useAuth] called outside every [AuthProvider] throws the error
    "useAuth must be used within an AuthProvider".  Below an
    [AuthProvider] it returns the value of that provider, whatever other
    providers enclose it, and the [user] a consumer reads there is null
    exactly when the [session] it reads is, at any point of the
    lifecycle. *)
Theorem useAuth_within_provider
    (storage : gmap string string) (origin : string) (l : list Action)
    (outer : list Context.t) :
  let w := final l (mount storage origin) in
  useAuth [] = Throw (Supabase.mkError
                        "useAuth must be used within an AuthProvider") ∧
  useAuth (AuthProvider_children w outer) = Normal (provider_value w) ∧
  Context.session (provider_value w) = session w ∧
  Context.isLoading (provider_value w) = isLoading w ∧
  Context.user (provider_value w)
  = session_user (Context.session (provider_value w)) ∧
  (Context.user (provider_value w) ≠ None
   ↔ Context.session (provider_value w) ≠ None).
Proof.
  intros w. subst w.
  pose proof (final_user_of_session l (mount storage origin) eq_refl) as H.
  repeat split; try reflexivity; try exact H.
  all: cbn [provider_value Context.user Context.session]; rewrite H;
       apply session_user_consistent.
Qed.
